(** * analysis/mafft.py: a command-line wrapper around the Mafft aligner

    The Python module defines one class, [MafftCline], derived from
    [clineapp.ClineApp].  Its methods mutate the runner object and the file
    system and signal failure by raising exceptions, so they are embedded in
    a state-and-exception monad over the pair (runner object, world).  As in
    Python, the mutations made before an exception is raised persist.

    Third-party and platform services (the Biopython FASTA writer and
    alignment reader, the external aligner binary, the choice of the scratch
    directory) are the fields of the [Platform] class. *)

From Stdlib Require Import String Ascii List ZArith Lia Bool.
From stdpp Require Import base gmap strings list fin_maps.

(** ** Python values and exceptions *)

(** [Bio.SeqRecord.SeqRecord], reduced to the two fields that the FASTA
    format carries. *)
Record SeqRecord := mkSeqRecord { sr_id : string; sr_seq : string }.

(** What [AlignIO.read] yields: the rows of the alignment, in file order. *)
Definition Alignment := list SeqRecord.

(** The elements that a caller may put in the iterable handed to [run]. *)
Inductive pyobj :=
| PySeqRecord (r : SeqRecord)
| PyStr (s : string)
| PyInt (z : Z)
| PyNone.

(** [isinstance (s, SeqRecord.SeqRecord)] *)
Definition isinstance_SeqRecord (o : pyobj) : bool :=
  match o with PySeqRecord _ => true | _ => false end.

Definition as_SeqRecord (o : pyobj) : option SeqRecord :=
  match o with PySeqRecord r => Some r | _ => None end.

Inductive exn :=
| AssertionError (msg : option string)
| AttributeError (attr : string)
| NameError (name : string)
| IOError (path : string)
| ValueError (msg : string).

Inductive result (A : Type) :=
| Ok (a : A)
| Raise (e : exn).
Arguments Ok {A} a.
Arguments Raise {A} e.

(** ** The runner object and the world it acts on *)

(** The attributes of a [MafftCline] instance.  [None] in [_curr_cline] and
    [_curr_workdir] is Python's [None]; [None] in [_inseqs] and
    [_inseq_path] means that the attribute has not been assigned yet. *)
Record Runner := mkRunner {
  _exepath : string;
  _use_workdir : bool;
  _remove_workdir : bool;
  _check_requirements : bool;
  _curr_cline : option string;
  _curr_workdir : option string;
  _curr_status : option Z;
  _curr_err : option string;
  _inseqs : option (list pyobj);
  _inseq_path : option string
}.

(** Regular files (path to contents), directories, and the log of external
    processes started so far (working directory and command line, most
    recent first).  Paths are compared as strings. *)
Record World := mkWorld {
  files : gmap string string;
  dirs : gset string;
  spawned : list (string * string)
}.

Record State := mkState { self : Runner; world : World }.

(** What a finished external process leaves behind. *)
Record Completed := mkCompleted {
  out_files : gmap string string;
  returncode : Z;
  errstream : string
}.

Class Platform := {
  (** [SeqIO.write (records, handle, 'fasta')]: the text written. *)
  SeqIO_write_fasta : list SeqRecord -> string;
  (** [AlignIO.read (handle, 'fasta')] on the text of the file. *)
  AlignIO_read_fasta : string -> result Alignment;
  (** The scratch directory chosen, given the directories that exist. *)
  scratch_dir : gset string -> string;
  (** The shell running a command line in a directory over the files. *)
  tool : string -> string -> gmap string string -> Completed;
  (** [utils.file_to_string (path)] *)
  file_to_string : string -> gmap string string -> result string
}.

(** ** The monad of methods *)

Definition M (A : Type) : Type := State -> result A * State.

Definition ret {A : Type} (a : A) : M A := fun st => (Ok a, st).

Definition bind {A B : Type} (m : M A) (k : A -> M B) : M B :=
  fun st =>
    match m st with
    | (Ok a, st') => k a st'
    | (Raise e, st') => (Raise e, st')
    end.

Notation "'let*' x ':=' m 'in' k" := (bind m (fun x => k))
  (at level 10, x name, m at level 100, k at level 200,
   format "'[v' 'let*'  x  ':='  m  'in' '/' k ']'").

Definition raise {A : Type} (e : exn) : M A := fun st => (Raise e, st).

Definition gets {A : Type} (f : State -> A) : M A := fun st => (Ok (f st), st).

Definition modify (f : State -> State) : M unit := fun st => (Ok tt, f st).

(** [assert (c), msg] *)
Definition py_assert (c : bool) (msg : option string) : M unit :=
  if c then ret tt else raise (AssertionError msg).

(** Reading an attribute that may not have been assigned. *)
Definition getattr {A : Type} (name : string) (f : Runner -> option A) : M A :=
  fun st => match f (self st) with
            | Some a => (Ok a, st)
            | None => (Raise (AttributeError name), st)
            end.

(** Truth value of an attribute holding [None] or a string. *)
Definition truthy (o : option string) : bool :=
  match o with
  | None => false
  | Some s => negb (String.eqb s "")
  end.

(** *** Attribute and world updates *)

Definition with_self (f : Runner -> Runner) (st : State) : State :=
  mkState (f (self st)) (world st).

Definition with_world (f : World -> World) (st : State) : State :=
  mkState (self st) (f (world st)).

Definition set_curr_cline (v : option string) (r : Runner) : Runner :=
  mkRunner (_exepath r) (_use_workdir r) (_remove_workdir r)
    (_check_requirements r) v (_curr_workdir r) (_curr_status r)
    (_curr_err r) (_inseqs r) (_inseq_path r).

Definition set_curr_workdir (v : option string) (r : Runner) : Runner :=
  mkRunner (_exepath r) (_use_workdir r) (_remove_workdir r)
    (_check_requirements r) (_curr_cline r) v (_curr_status r)
    (_curr_err r) (_inseqs r) (_inseq_path r).

Definition set_curr_result (s : Z) (e : string) (r : Runner) : Runner :=
  mkRunner (_exepath r) (_use_workdir r) (_remove_workdir r)
    (_check_requirements r) (_curr_cline r) (_curr_workdir r) (Some s)
    (Some e) (_inseqs r) (_inseq_path r).

Definition set_inseqs (v : list pyobj) (r : Runner) : Runner :=
  mkRunner (_exepath r) (_use_workdir r) (_remove_workdir r)
    (_check_requirements r) (_curr_cline r) (_curr_workdir r)
    (_curr_status r) (_curr_err r) (Some v) (_inseq_path r).

Definition set_inseq_path (v : string) (r : Runner) : Runner :=
  mkRunner (_exepath r) (_use_workdir r) (_remove_workdir r)
    (_check_requirements r) (_curr_cline r) (_curr_workdir r)
    (_curr_status r) (_curr_err r) (_inseqs r) (Some v).

Definition set_files (fs : gmap string string) (w : World) : World :=
  mkWorld fs (dirs w) (spawned w).

Definition add_dir (d : string) (w : World) : World :=
  mkWorld (files w) ({[d]} ∪ dirs w) (spawned w).

Definition log_spawn (cwd cmdline : string) (w : World) : World :=
  mkWorld (files w) (dirs w) ((cwd, cmdline) :: spawned w).

(** ** The parts of the Python standard library that the module uses *)

Fixpoint last_char (s : string) : option ascii :=
  match s with
  | EmptyString => None
  | String c rest =>
      match rest with
      | EmptyString => Some c
      | String _ _ => last_char rest
      end
  end.

(** [s.endswith ('/')] *)
Definition endswith_slash (s : string) : bool :=
  match last_char s with
  | Some c => Ascii.eqb c "/"%char
  | None => false
  end.

(** [posixpath.join (a, b)] on two strings. *)
Definition posix_join (a b : string) : string :=
  if String.prefix "/" b then b
  else if String.eqb a "" || endswith_slash a then a +:+ b
  else a +:+ "/" +:+ b.

(** [os.path.join (a, b)] where [a] may be [None]: the second component is
    inspected first, and [None] fails on its [endswith] attribute. *)
Definition os_path_join (a : option string) (b : string) : M string :=
  if String.prefix "/" b then ret b
  else match a with
       | Some a' => ret (posix_join a' b)
       | None => raise (AttributeError "endswith")
       end.

(** A path exists when it names a regular file or a directory. *)
Definition path_exists (w : World) (p : string) : bool :=
  bool_decide (is_Some (files w !! p)) || bool_decide (p ∈ dirs w).

(** [os.path.exists (p)] *)
Definition os_path_exists (p : string) : M bool :=
  gets (fun st => path_exists (world st) p).

(** [open (p, 'rU')] followed by reading the handle to its end. *)
Definition open_read (p : string) : M string :=
  fun st => match files (world st) !! p with
            | Some text => (Ok text, st)
            | None => (Raise (IOError p), st)
            end.

(** [open (p, 'w')], one write of [text], and [close ()]. *)
Definition open_write_close (p text : string) : M unit :=
  modify (with_world (fun w => set_files (<[p := text]> (files w)) w)).

(** The names bound at the top level of the module when its methods run:
    the imports, the constants, the class and the test function. *)
Definition module_globals : list string :=
  ["__docformat__"; "os"; "SeqRecord"; "SeqIO"; "AlignIO"; "clineapp";
   "scratchfile"; "INSEQ_FILENAME"; "OUTALIGN_FILENAME"; "MafftCline";
   "_doctest"].

(** Evaluation of a global name in a method body. *)
Definition load_global (name : string) : M unit :=
  if bool_decide (name ∈ module_globals) then ret tt
  else raise (NameError name).

(** ** clineapp.ClineApp, the base class *)

Module ClineApp.

(** Modelled from the spec: the constructor of the base class [ClineApp]
    (module [clineapp], not among the sources).  It stores the tool path
    and the three policy flags it is given; the run context starts with no
    command line and no working directory. *)
Definition __init__ (exepath : string)
    (use_workdir remove_workdir check_requirements : bool) : Runner :=
  {| _exepath := exepath;
     _use_workdir := use_workdir;
     _remove_workdir := remove_workdir;
     _check_requirements := check_requirements;
     _curr_cline := None;
     _curr_workdir := None;
     _curr_status := None;
     _curr_err := None;
     _inseqs := None;
     _inseq_path := None |}.

(** Modelled from the spec: [ClineApp.setup_workdir], which creates (or
    reuses) the scratch working directory at the start of setup. *)
Definition setup_workdir `{Platform} : M unit :=
  fun st =>
    if _use_workdir (self st) then
      let d := scratch_dir (dirs (world st)) in
      (Ok tt, with_self (set_curr_workdir (Some d))
                (with_world (add_dir d) st))
    else (Ok tt, st).

(** Modelled from the spec: [ClineApp._build_cmdline], the base command
    line: the tool path followed by the arguments, separated by spaces. *)
Definition _build_cmdline (clargs : list string) : M string :=
  let* exepath := gets (fun st => _exepath (self st)) in
  ret (String.concat " " (exepath :: clargs)).

(** Modelled from the spec: the synchronous call of the external program
    in the working directory.  The exit status and the error stream are
    kept on the runner; a non-zero status raises nothing. *)
Definition run_cmdline `{Platform} (cmdline : string) : M unit :=
  fun st =>
    let cwd := default "" (_curr_workdir (self st)) in
    let done := tool cwd cmdline (files (world st)) in
    (Ok tt,
     with_self (set_curr_result (returncode done) (errstream done))
       (with_world (fun w => log_spawn cwd cmdline
                               (set_files (out_files done) w)) st)).

(** Modelled from the spec: removal of a directory and of the files below
    it, for a runner configured to destroy its working directory. *)
Definition rmtree (d : string) (w : World) : World :=
  mkWorld
    (filter (fun kv => ¬ String.prefix (d +:+ "/") (fst kv) = true) (files w))
    (dirs w ∖ {[d]})
    (spawned w).

(** Modelled from the spec: the end of a run, where the working directory
    is destroyed or kept, depending on the configuration. *)
Definition cleanup_workdir : M unit :=
  fun st =>
    if _remove_workdir (self st) then
      match _curr_workdir (self st) with
      | Some d => (Ok tt, with_world (rmtree d) st)
      | None => (Ok tt, st)
      end
    else (Ok tt, st).

(** Modelled from the spec: [ClineApp.call_cmdline], the control flow of
    one run: set up the working directory, build the command line and
    remember it, run it, and at the end remove or keep the working
    directory as configured.  The two methods that [MafftCline] overrides
    are taken as arguments, which is how the call through [self] reaches
    them. *)
Definition call_cmdline `{Platform} (setup : M unit)
    (build : list string -> M string) (clargs : list string) : M unit :=
  let* _ := setup in
  let* cmdline := build clargs in
  let* _ := modify (with_self (set_curr_cline (Some cmdline))) in
  let* _ := run_cmdline cmdline in
  cleanup_workdir.

End ClineApp.

(** ** scratchfile *)

Module scratchfile.

(** Modelled from the spec: [scratchfile.make_scratch_file (name, dir)]
    (module [scratchfile], not among the sources): the path of the file
    with the fixed name [name] inside the working directory [dir]. *)
Definition make_scratch_file (name : string) (dir : option string) : M string :=
  os_path_join dir name.

End scratchfile.

(** ** mafft.MafftCline *)

Module MafftCline.

Definition INSEQ_FILENAME : string := "inseq.fasta".
Definition OUTALIGN_FILENAME : string := "outalign.fasta".

Definition default_exepath : string := "/usr/bin/mafft".

(** [def __init__ (self, exepath='/usr/bin/mafft')] *)
Definition __init__ (exepath : string) : Runner :=
  ClineApp.__init__ exepath true false false.

(** The loop of [setup_workdir]: each element is checked, then appended. *)
Fixpoint convert_loop (bioseqs inseqs : list pyobj) : M (list pyobj) :=
  match bioseqs with
  | [] => ret inseqs
  | s :: rest =>
      let* _ := py_assert (isinstance_SeqRecord s) None in
      convert_loop rest (inseqs ++ [s])
  end.

Definition setup_workdir `{Platform} : M unit :=
  let* _ := ClineApp.setup_workdir in
  let* workdir := gets (fun st => _curr_workdir (self st)) in
  let* path := scratchfile.make_scratch_file "inseq.fasta" workdir in
  let* _ := modify (with_self (set_inseq_path path)) in
  let* bioseqs := getattr "_inseqs" _inseqs in
  let* inseqs := convert_loop bioseqs [] in
  let* inseq_path := getattr "_inseq_path" _inseq_path in
  open_write_close inseq_path (SeqIO_write_fasta (omap as_SeqRecord inseqs)).

Definition _build_cmdline (clargs : list string) : M string :=
  let clargs := clargs ++ [INSEQ_FILENAME] in
  let* cmdline := ClineApp._build_cmdline clargs in
  let cmdline := cmdline +:+ (" > " +:+ OUTALIGN_FILENAME) in
  ret cmdline.

(** [self.call_cmdline (...)] on a [MafftCline] instance. *)
Definition call_cmdline `{Platform} (clargs : list string) : M unit :=
  ClineApp.call_cmdline setup_workdir _build_cmdline clargs.

Definition run `{Platform} (bioseqs : list pyobj) (clargs : list string) : M unit :=
  let* _ := py_assert (2 <=? length bioseqs) None in
  let* _ := modify (with_self (set_inseqs bioseqs)) in
  call_cmdline clargs.

Definition run_fftns `{Platform} (bioseqs : list pyobj) : M unit :=
  run bioseqs ["--retree 2"; "--maxiterate 0"].

Definition run_quick_and_dirty `{Platform} : list pyobj -> M unit := run_fftns.

(** The first definition of [extract_results] in the class body. *)
Definition extract_results_first `{Platform} : M Alignment :=
  let* curr_cline := gets (fun st => _curr_cline (self st)) in
  let* _ := py_assert (truthy curr_cline) None in
  let* workdir := gets (fun st => _curr_workdir (self st)) in
  let* output_path := os_path_join workdir OUTALIGN_FILENAME in
  let* found := os_path_exists output_path in
  let* _ := py_assert found (Some ("can't find outfile " +:+ output_path)) in
  let* output_hndl := open_read output_path in
  let* align := (fun st => (AlignIO_read_fasta output_hndl, st)) in
  ret align.

(** The second definition, which is the one bound to the name when the
    class body has been executed. *)
Definition extract_results `{Platform} : M Alignment :=
  let* curr_cline := gets (fun st => _curr_cline (self st)) in
  let* _ := py_assert (truthy curr_cline) None in
  let* workdir := gets (fun st => _curr_workdir (self st)) in
  let* output_path := os_path_join workdir OUTALIGN_FILENAME in
  let* found := os_path_exists output_path in
  let* _ := py_assert found (Some ("can't find outfile " +:+ output_path)) in
  let* aln_hndl := open_read output_path in
  let* aln := (fun st => (AlignIO_read_fasta aln_hndl, st)) in
  ret aln.

(** The loop of [extract_diagnostics] over the file names. *)
Fixpoint diagnostics_loop `{Platform} (filenames : list string)
    (diag : gmap string string) : M (gmap string string) :=
  match filenames with
  | [] => ret diag
  | item :: rest =>
      let* workdir := gets (fun st => _curr_workdir (self st)) in
      let* fpath := os_path_join workdir item in
      let* _ := load_global "utils" in
      let* text := (fun st => (file_to_string fpath (files (world st)), st)) in
      diagnostics_loop rest (<[item := text]> diag)
  end.

Definition extract_diagnostics `{Platform} : M (gmap string string) :=
  let diag : gmap string string := ∅ in
  let filenames := [INSEQ_FILENAME; OUTALIGN_FILENAME] in
  diagnostics_loop filenames diag.

End MafftCline.

(** ** Concrete platforms for the examples *)

Module Stub.

Definition nl : string := String (ascii_of_nat 10) "".

(** A small FASTA codec: a header line [>id] and one line of residues per
    record.  It stands in for the Biopython routines in the examples. *)
Definition write_fasta (records : list SeqRecord) : string :=
  String.concat ""
    (map (fun r => ">" +:+ sr_id r +:+ nl +:+ sr_seq r +:+ nl) records).

Fixpoint split_lines (s : string) : list string :=
  match s with
  | EmptyString => [""]
  | String c rest =>
      if Ascii.eqb c (ascii_of_nat 10) then "" :: split_lines rest
      else match split_lines rest with
           | l :: ls => String c l :: ls
           | [] => [String c ""]
           end
  end.

Fixpoint parse_lines (ls : list string) (curr : option SeqRecord)
    : list SeqRecord :=
  match ls with
  | [] => match curr with Some r => [r] | None => [] end
  | l :: rest =>
      match l with
      | String ">" title =>
          match curr with
          | Some r => r :: parse_lines rest (Some (mkSeqRecord title ""))
          | None => parse_lines rest (Some (mkSeqRecord title ""))
          end
      | _ =>
          match curr with
          | Some r =>
              parse_lines rest (Some (mkSeqRecord (sr_id r) (sr_seq r +:+ l)))
          | None => parse_lines rest None
          end
      end
  end.

Definition read_fasta (text : string) : result Alignment :=
  match parse_lines (split_lines text) None with
  | [] => Raise (ValueError "No records found in handle")
  | rows => Ok rows
  end.

(** A stand-in for the aligner that copies the input file, unchanged, to
    the output file name, both inside the directory it is started in. *)
Definition copy_tool (cwd cmdline : string) (fs : gmap string string)
    : Completed :=
  match fs !! posix_join cwd MafftCline.INSEQ_FILENAME with
  | Some text =>
      mkCompleted (<[posix_join cwd MafftCline.OUTALIGN_FILENAME := text]> fs)
        0 ""
  | None => mkCompleted fs 1 "inseq.fasta: no such file"
  end.

(** A stand-in for an aligner that fails and produces no output file. *)
Definition failing_tool (cwd cmdline : string) (fs : gmap string string)
    : Completed :=
  mkCompleted fs 127 "mafft: command not found".

Definition read_file (path : string) (fs : gmap string string)
    : result string :=
  match fs !! path with
  | Some text => Ok text
  | None => Raise (IOError path)
  end.

Definition copying : Platform :=
  {| SeqIO_write_fasta := write_fasta;
     AlignIO_read_fasta := read_fasta;
     scratch_dir := fun _ => "/tmp/mafft-scratch";
     tool := copy_tool;
     file_to_string := read_file |}.

Definition failing : Platform :=
  {| SeqIO_write_fasta := write_fasta;
     AlignIO_read_fasta := read_fasta;
     scratch_dir := fun _ => "/tmp/mafft-scratch";
     tool := failing_tool;
     file_to_string := read_file |}.

Definition empty_world : World := mkWorld ∅ ∅ [].

Definition fresh (exepath : string) : State :=
  mkState (MafftCline.__init__ exepath) empty_world.

Definition seqA : SeqRecord := mkSeqRecord "A" "ACGT".
Definition seqB : SeqRecord := mkSeqRecord "B" "AC-T".

End Stub.

(** ** Vocabulary of the statements *)

(** The policy that [MafftCline.__init__] hands to the base constructor:
    a working directory is used, and it is not removed after the run. *)
Definition configured (r : Runner) : Prop :=
  _use_workdir r = true /\ _remove_workdir r = false.

(** The working directory of the next run, and the two files in it. *)
Definition next_workdir `{Platform} (st : State) : string :=
  scratch_dir (dirs (world st)).

Definition inseq_file `{Platform} (st : State) : string :=
  posix_join (next_workdir st) MafftCline.INSEQ_FILENAME.

Definition outalign_file `{Platform} (st : State) : string :=
  posix_join (next_workdir st) MafftCline.OUTALIGN_FILENAME.

(** The state in which the loop of [setup_workdir] starts: the directory
    exists and is recorded, and so is the path of the input file. *)
Definition prepared `{Platform} (st : State) : State :=
  with_self (set_inseq_path (inseq_file st))
    (with_self (set_curr_workdir (Some (next_workdir st)))
       (with_world (add_dir (next_workdir st)) st)).

(** A stand-in tool in the sense of the round-trip property: whenever the
    input file exists in the directory the tool is started in, the tool
    leaves a verbatim copy of it under the output file name and touches
    nothing else. *)
Definition copies_input `{Platform} : Prop :=
  forall (cwd cmdline text : string) (fs : gmap string string),
    fs !! posix_join cwd MafftCline.INSEQ_FILENAME = Some text ->
    out_files (tool cwd cmdline fs)
    = <[posix_join cwd MafftCline.OUTALIGN_FILENAME := text]> fs.

(** The states of a runner on which no run has got as far as building a
    command line: a new runner, and what the other operations, a failed
    [run] and changes of the file system make of such a state. *)
Inductive never_run `{Platform} : State -> Prop :=
| never_run_new (exepath : string) (w : World) :
    never_run (mkState (MafftCline.__init__ exepath) w)
| never_run_world (st : State) (w : World) :
    never_run st -> never_run (mkState (self st) w)
| never_run_extract_results (st : State) :
    never_run st -> never_run (snd (MafftCline.extract_results st))
| never_run_extract_diagnostics (st : State) :
    never_run st -> never_run (snd (MafftCline.extract_diagnostics st))
| never_run_build_cmdline (st : State) (clargs : list string) :
    never_run st -> never_run (snd (MafftCline._build_cmdline clargs st))
| never_run_failed_run (st st' : State) (bioseqs : list pyobj)
    (clargs : list string) (e : exn) :
    never_run st ->
    MafftCline.run bioseqs clargs st = (Raise e, st') ->
    never_run st'.

(** The full command line of a run with the arguments [clargs]. *)
Definition full_cmdline (st : State) (clargs : list string) : string :=
  String.concat " " (_exepath (self st) :: clargs)
  +:+ " inseq.fasta > outalign.fasta".

(** * Properties *)

(** ** Strings *)

Lemma append_nil (t : string) : "" +:+ t = t.
Proof. reflexivity. Qed.

Lemma append_cons (c : ascii) (s t : string) :
  String c s +:+ t = String c (s +:+ t).
Proof. reflexivity. Qed.

Lemma append_assoc (s1 s2 s3 : string) :
  (s1 +:+ s2) +:+ s3 = s1 +:+ (s2 +:+ s3).
Proof.
  induction s1 as [|c s1 IH]; [reflexivity |].
  rewrite !append_cons. now rewrite IH.
Qed.

Lemma concat_snoc (sep x y : string) (l : list string) :
  String.concat sep ((x :: l) ++ [y]) = String.concat sep (x :: l) +:+ sep +:+ y.
Proof.
  revert x. induction l as [|a l IH]; intros x.
  - reflexivity.
  - change (String.concat sep ((x :: a :: l) ++ [y]))
      with (x +:+ sep +:+ String.concat sep ((a :: l) ++ [y])).
    rewrite IH.
    change (String.concat sep (x :: a :: l))
      with (x +:+ sep +:+ String.concat sep (a :: l)).
    now rewrite !append_assoc.
Qed.

Lemma concat_app_last (sep y : string) (l : list string) :
  l <> [] ->
  String.concat sep (l ++ [y]) = String.concat sep l +:+ sep +:+ y.
Proof.
  destruct l as [|x l]; [congruence | intros _; apply concat_snoc].
Qed.

Lemma append_nonempty (s t : string) : t <> "" -> s +:+ t <> "".
Proof.
  intros Ht. destruct s as [|c s]; [exact Ht | rewrite append_cons; discriminate].
Qed.

(** ** The monad *)

Lemma bind_ok {A B : Type} (m : M A) (k : A -> M B) st a st' :
  m st = (Ok a, st') -> bind m k st = k a st'.
Proof. intros E. unfold bind. now rewrite E. Qed.

Lemma bind_raise {A B : Type} (m : M A) (k : A -> M B) st e st' :
  m st = (Raise e, st') -> bind m k st = (Raise e, st').
Proof. intros E. unfold bind. now rewrite E. Qed.

Lemma os_path_join_relative (d name : string) (st : State) :
  String.prefix "/" name = false ->
  os_path_join (Some d) name st = (Ok (posix_join d name), st).
Proof. intros E. unfold os_path_join. now rewrite E. Qed.

(** ** Command line construction *)

Lemma build_cmdline_eq (clargs : list string) (st : State) :
  MafftCline._build_cmdline clargs st =
    (Ok (String.concat " " (_exepath (self st) :: clargs)
         +:+ " inseq.fasta > outalign.fasta"), st).
Proof.
  unfold MafftCline._build_cmdline, ClineApp._build_cmdline, bind, gets, ret.
  cbv beta iota. do 2 f_equal.
  change (_exepath (self st) :: clargs ++ [MafftCline.INSEQ_FILENAME])
    with ((_exepath (self st) :: clargs) ++ [MafftCline.INSEQ_FILENAME]).
  rewrite concat_snoc. now rewrite !append_assoc.
Qed.

Lemma cmdline_truthy (s : string) :
  truthy (Some (s +:+ " inseq.fasta > outalign.fasta")) = true.
Proof.
  unfold truthy. apply negb_true_iff, String.eqb_neq, append_nonempty.
  discriminate.
Qed.

(** C3: for every list of caller-supplied arguments the command line built
    by [_build_cmdline] is the tool path, the arguments in the order given,
    the input file name, [>] and the output file name, separated by single
    spaces; so it ends with [inseq.fasta > outalign.fasta] and the arguments
    stand between the tool path and the input file name.  Building the
    command line leaves the runner and the world as they were. *)
Theorem build_cmdline_shape (clargs : list string) (st : State) :
  exists cmdline : string,
    MafftCline._build_cmdline clargs st = (Ok cmdline, st)
    /\ cmdline = String.concat " "
                   (_exepath (self st) :: clargs
                      ++ [MafftCline.INSEQ_FILENAME; ">";
                          MafftCline.OUTALIGN_FILENAME])
    /\ cmdline = String.concat " " (_exepath (self st) :: clargs)
                 +:+ " " +:+ MafftCline.INSEQ_FILENAME
                 +:+ " > " +:+ MafftCline.OUTALIGN_FILENAME.
Proof.
  eexists. split; [apply build_cmdline_eq |]. split; [| reflexivity].
  assert (E : clargs ++ [MafftCline.INSEQ_FILENAME; ">";
                         MafftCline.OUTALIGN_FILENAME]
              = ((clargs ++ [MafftCline.INSEQ_FILENAME]) ++ [">"])
                  ++ [MafftCline.OUTALIGN_FILENAME])
    by (now rewrite <- !app_assoc).
  rewrite E, !app_comm_cons.
  rewrite !concat_app_last by discriminate.
  now rewrite !append_assoc.
Qed.

(** ** The conversion loop *)

Lemma convert_loop_eq (bioseqs inseqs : list pyobj) (st : State) :
  MafftCline.convert_loop bioseqs inseqs st =
    if forallb isinstance_SeqRecord bioseqs
    then (Ok (inseqs ++ bioseqs), st)
    else (Raise (AssertionError None), st).
Proof.
  revert inseqs. induction bioseqs as [|s rest IH]; intros inseqs.
  - cbn. unfold ret. now rewrite app_nil_r.
  - cbn [MafftCline.convert_loop forallb]. unfold bind, py_assert.
    destruct (isinstance_SeqRecord s); cbn.
    + rewrite IH. now rewrite <- app_assoc.
    + reflexivity.
Qed.

Lemma forallb_isinstance_records (records : list SeqRecord) :
  forallb isinstance_SeqRecord (map PySeqRecord records) = true.
Proof. induction records as [|r l IH]; [reflexivity | exact IH]. Qed.

Lemma omap_as_SeqRecord_records (records : list SeqRecord) :
  omap as_SeqRecord (map PySeqRecord records) = records.
Proof.
  induction records as [|r l IH]; [reflexivity |].
  cbn. now rewrite IH.
Qed.

Lemma forallb_isinstance_false (bioseqs : list pyobj) :
  Exists (fun o => isinstance_SeqRecord o = false) bioseqs ->
  forallb isinstance_SeqRecord bioseqs = false.
Proof.
  induction 1 as [o l Ho | o l _ IH]; cbn.
  - now rewrite Ho.
  - rewrite IH. apply andb_false_r.
Qed.

(** ** Setting up the working directory *)

Section Setup.
Context `{Platform}.

Lemma base_setup_workdir_eq (st : State) :
  _use_workdir (self st) = true ->
  ClineApp.setup_workdir st
  = (Ok tt, with_self (set_curr_workdir (Some (next_workdir st)))
              (with_world (add_dir (next_workdir st)) st)).
Proof. intros E. unfold ClineApp.setup_workdir. now rewrite E. Qed.

Lemma setup_workdir_eq (st : State) (bioseqs : list pyobj) :
  _use_workdir (self st) = true ->
  _inseqs (self st) = Some bioseqs ->
  MafftCline.setup_workdir st =
    if forallb isinstance_SeqRecord bioseqs
    then (Ok tt,
          with_world
            (fun w => set_files
                        (<[inseq_file st :=
                             SeqIO_write_fasta (omap as_SeqRecord bioseqs)]>
                           (files w)) w)
            (prepared st))
    else (Raise (AssertionError None), prepared st).
Proof.
  intros Euse Eseqs. unfold MafftCline.setup_workdir.
  rewrite (bind_ok _ _ _ _ _ (base_setup_workdir_eq st Euse)).
  unfold bind at 1. unfold gets at 1. cbv beta iota.
  unfold scratchfile.make_scratch_file.
  erewrite bind_ok; [| apply os_path_join_relative; reflexivity].
  unfold bind at 1. unfold modify at 1. cbv beta iota.
  unfold bind at 1. unfold getattr at 1. cbn [self with_self _inseqs
    set_inseq_path set_curr_workdir with_world].
  rewrite Eseqs.
  unfold bind at 1. rewrite convert_loop_eq.
  destruct (forallb isinstance_SeqRecord bioseqs); reflexivity.
Qed.

End Setup.

(** ** One run *)

Section Run.
Context `{Platform}.

Lemma run_short (st : State) (bioseqs : list pyobj) (clargs : list string) :
  length bioseqs < 2 ->
  MafftCline.run bioseqs clargs st = (Raise (AssertionError None), st).
Proof.
  intros Hlen. unfold MafftCline.run.
  apply bind_raise. unfold py_assert.
  destruct (Nat.leb_spec 2 (length bioseqs)); [lia | reflexivity].
Qed.

Lemma run_long (st : State) (bioseqs : list pyobj) (clargs : list string) :
  2 <= length bioseqs ->
  MafftCline.run bioseqs clargs st
  = MafftCline.call_cmdline clargs (with_self (set_inseqs bioseqs) st).
Proof.
  intros Hlen. unfold MafftCline.run.
  erewrite bind_ok; [| unfold py_assert;
    destruct (Nat.leb_spec 2 (length bioseqs)); [reflexivity | lia]].
  reflexivity.
Qed.

Lemma run_ok (st : State) (bioseqs : list pyobj) (clargs : list string) :
  configured (self st) ->
  2 <= length bioseqs ->
  forallb isinstance_SeqRecord bioseqs = true ->
  exists st' : State,
    MafftCline.run bioseqs clargs st = (Ok tt, st')
    /\ configured (self st')
    /\ _exepath (self st') = _exepath (self st)
    /\ _curr_cline (self st') = Some (full_cmdline st clargs)
    /\ _curr_workdir (self st') = Some (next_workdir st)
    /\ _inseqs (self st') = Some bioseqs
    /\ _inseq_path (self st') = Some (inseq_file st)
    /\ files (world st')
       = out_files
           (tool (next_workdir st) (full_cmdline st clargs)
              (<[inseq_file st :=
                   SeqIO_write_fasta (omap as_SeqRecord bioseqs)]>
                 (files (world st))))
    /\ dirs (world st') = {[next_workdir st]} ∪ dirs (world st)
    /\ spawned (world st')
       = (next_workdir st, full_cmdline st clargs) :: spawned (world st).
Proof.
  intros [Huse Hrm] Hlen Hall. eexists. split.
  - rewrite run_long by exact Hlen.
    unfold MafftCline.call_cmdline, ClineApp.call_cmdline.
    erewrite bind_ok;
      [| rewrite (setup_workdir_eq _ bioseqs);
         [rewrite Hall; reflexivity | exact Huse | reflexivity]].
    erewrite bind_ok; [| apply build_cmdline_eq].
    erewrite bind_ok; [| reflexivity].
    erewrite bind_ok; [| reflexivity].
    unfold ClineApp.cleanup_workdir.
    cbn [self with_self with_world set_curr_result set_curr_cline
         _remove_workdir set_inseq_path set_curr_workdir set_inseqs prepared].
    rewrite Hrm. reflexivity.
  - repeat split; try reflexivity; assumption.
Qed.

End Run.

(** ** Reading the result *)

Section Extract.
Context `{Platform}.

Lemma extract_results_not_run (st : State) :
  truthy (_curr_cline (self st)) = false ->
  MafftCline.extract_results st = (Raise (AssertionError None), st).
Proof.
  intros E. unfold MafftCline.extract_results.
  unfold bind at 1. unfold gets at 1. cbv beta iota.
  apply bind_raise. unfold py_assert. now rewrite E.
Qed.

Lemma extract_results_in_workdir (st : State) (d : string) :
  truthy (_curr_cline (self st)) = true ->
  _curr_workdir (self st) = Some d ->
  MafftCline.extract_results st =
    let output_path := posix_join d MafftCline.OUTALIGN_FILENAME in
    if path_exists (world st) output_path then
      match files (world st) !! output_path with
      | Some text => (AlignIO_read_fasta text, st)
      | None => (Raise (IOError output_path), st)
      end
    else (Raise (AssertionError
                   (Some ("can't find outfile " +:+ output_path))), st).
Proof.
  intros Ecl Ewd. unfold MafftCline.extract_results.
  unfold bind at 1. unfold gets at 1. cbv beta iota.
  erewrite bind_ok; [| unfold py_assert; rewrite Ecl; reflexivity].
  unfold bind at 1. unfold gets at 1. cbv beta iota. rewrite Ewd.
  erewrite bind_ok; [| apply os_path_join_relative; reflexivity].
  unfold bind at 1. unfold os_path_exists, gets. cbv beta iota zeta.
  destruct (path_exists (world st) (posix_join d MafftCline.OUTALIGN_FILENAME)).
  - erewrite bind_ok; [| reflexivity].
    unfold bind at 1. unfold open_read.
    destruct (files (world st) !! posix_join d MafftCline.OUTALIGN_FILENAME);
      [| reflexivity].
    unfold bind, ret. destruct (AlignIO_read_fasta s); reflexivity.
  - apply bind_raise. reflexivity.
Qed.

Lemma extract_results_found (st : State) (d text : string) :
  truthy (_curr_cline (self st)) = true ->
  _curr_workdir (self st) = Some d ->
  files (world st) !! posix_join d MafftCline.OUTALIGN_FILENAME = Some text ->
  MafftCline.extract_results st = (AlignIO_read_fasta text, st).
Proof.
  intros Ecl Ewd Efile. rewrite (extract_results_in_workdir st d Ecl Ewd).
  cbv zeta. unfold path_exists. rewrite Efile.
  rewrite bool_decide_eq_true_2 by (eexists; reflexivity). reflexivity.
Qed.

Lemma extract_results_missing (st : State) (d : string) :
  truthy (_curr_cline (self st)) = true ->
  _curr_workdir (self st) = Some d ->
  path_exists (world st) (posix_join d MafftCline.OUTALIGN_FILENAME) = false ->
  MafftCline.extract_results st
  = (Raise (AssertionError
              (Some ("can't find outfile "
                     +:+ posix_join d MafftCline.OUTALIGN_FILENAME))), st).
Proof.
  intros Ecl Ewd Emiss. rewrite (extract_results_in_workdir st d Ecl Ewd).
  cbv zeta. now rewrite Emiss.
Qed.

End Extract.

(** ** Diagnostics *)

Lemma extract_diagnostics_eq `{Platform} (st : State) :
  MafftCline.extract_diagnostics st
  = (Raise match _curr_workdir (self st) with
           | Some _ => NameError "utils"
           | None => AttributeError "endswith"
           end, st).
Proof.
  unfold MafftCline.extract_diagnostics. cbv zeta.
  cbn [MafftCline.diagnostics_loop].
  unfold bind at 1. unfold gets at 1. cbv beta iota.
  destruct (_curr_workdir (self st)) as [d|].
  - erewrite bind_ok; [| apply os_path_join_relative; reflexivity].
    apply bind_raise. reflexivity.
  - apply bind_raise. reflexivity.
Qed.

(** ** States before and after a run *)

Section States.
Context `{Platform}.

Lemma extract_results_state (st : State) :
  snd (MafftCline.extract_results st) = st.
Proof.
  destruct (truthy (_curr_cline (self st))) eqn:Ecl.
  - destruct (_curr_workdir (self st)) as [d|] eqn:Ewd.
    + rewrite (extract_results_in_workdir st d Ecl Ewd). cbv zeta.
      destruct (path_exists _ _); [| reflexivity].
      destruct (files (world st) !! _); reflexivity.
    + unfold MafftCline.extract_results.
      unfold bind at 1. unfold gets at 1. cbv beta iota.
      erewrite bind_ok; [| unfold py_assert; rewrite Ecl; reflexivity].
      unfold bind at 1. unfold gets at 1. cbv beta iota. rewrite Ewd.
      erewrite bind_raise; reflexivity.
  - now rewrite extract_results_not_run.
Qed.

Lemma run_nonrecord (st : State) (bioseqs : list pyobj)
    (clargs : list string) :
  _use_workdir (self st) = true ->
  2 <= length bioseqs ->
  forallb isinstance_SeqRecord bioseqs = false ->
  MafftCline.run bioseqs clargs st
  = (Raise (AssertionError None), prepared (with_self (set_inseqs bioseqs) st)).
Proof.
  intros Huse Hlen Hall. rewrite run_long by exact Hlen.
  unfold MafftCline.call_cmdline, ClineApp.call_cmdline.
  apply bind_raise.
  rewrite (setup_workdir_eq _ bioseqs); [| exact Huse | reflexivity].
  now rewrite Hall.
Qed.

Lemma run_ok_inv (st st' : State) (bioseqs : list pyobj)
    (clargs : list string) :
  configured (self st) ->
  MafftCline.run bioseqs clargs st = (Ok tt, st') ->
  2 <= length bioseqs /\ forallb isinstance_SeqRecord bioseqs = true.
Proof.
  intros Hc Hrun.
  destruct (Nat.lt_ge_cases (length bioseqs) 2) as [Hlt | Hge].
  - rewrite run_short in Hrun by exact Hlt. discriminate.
  - split; [exact Hge |].
    destruct (forallb isinstance_SeqRecord bioseqs) eqn:Hall; [reflexivity |].
    rewrite run_nonrecord in Hrun by (try apply Hc; assumption).
    discriminate.
Qed.

Lemma run_raise_inv (st st' : State) (bioseqs : list pyobj)
    (clargs : list string) (e : exn) :
  configured (self st) ->
  MafftCline.run bioseqs clargs st = (Raise e, st') ->
  configured (self st') /\ _curr_cline (self st') = _curr_cline (self st).
Proof.
  intros Hc Hrun.
  destruct (Nat.lt_ge_cases (length bioseqs) 2) as [Hlt | Hge].
  - rewrite run_short in Hrun by exact Hlt.
    injection Hrun as _ <-. split; [exact Hc | reflexivity].
  - destruct (forallb isinstance_SeqRecord bioseqs) eqn:Hall.
    + destruct (run_ok st bioseqs clargs Hc Hge Hall) as (st2 & E & _).
      rewrite E in Hrun. discriminate.
    + rewrite run_nonrecord in Hrun by (try apply Hc; assumption).
      injection Hrun as _ <-. split; [exact Hc | reflexivity].
Qed.

Lemma never_run_invariant (st : State) :
  never_run st -> configured (self st) /\ _curr_cline (self st) = None.
Proof.
  induction 1 as [exepath w | st w _ IH | st _ IH | st _ IH
                 | st clargs _ IH | st st' bioseqs clargs e _ IH Hrun].
  - repeat split.
  - exact IH.
  - now rewrite extract_results_state.
  - now rewrite extract_diagnostics_eq.
  - now rewrite build_cmdline_eq.
  - destruct IH as [Hc Hcl].
    destruct (run_raise_inv _ _ _ _ _ Hc Hrun) as [Hc' Hcl'].
    split; [exact Hc' | congruence].
Qed.

End States.

(** ** The stand-in platforms *)

Lemma copy_tool_copies : @copies_input Stub.copying.
Proof.
  intros cwd cmdline text fs Hin. cbn [tool Stub.copying].
  unfold Stub.copy_tool. now rewrite Hin.
Qed.

(** * The claims *)

(** C1, as the code has it: what comes back is the library's reading of
    the library's text.  Take a runner with the policy of [MafftCline], a
    collection of at least two sequence records and a stand-in tool that
    copies the input file verbatim to the output file name.  Then [run]
    succeeds; the file [inseq.fasta] in the working directory holds the
    text that [SeqIO.write] produces for the records in the order
    supplied, and [outalign.fasta] holds the same text; and
    [extract_results] afterwards returns exactly what [AlignIO.read]
    yields on that text, be it an alignment or an exception, and changes
    nothing.  Nothing is assumed about the FASTA library. *)
Theorem run_extract_results_roundtrip `{Platform} (st : State)
    (records : list SeqRecord) (clargs : list string) :
  configured (self st) ->
  2 <= length records ->
  copies_input ->
  exists st' : State,
    MafftCline.run (map PySeqRecord records) clargs st = (Ok tt, st')
    /\ files (world st') !! inseq_file st = Some (SeqIO_write_fasta records)
    /\ files (world st') !! outalign_file st = Some (SeqIO_write_fasta records)
    /\ MafftCline.extract_results st'
       = (AlignIO_read_fasta (SeqIO_write_fasta records), st').
Proof.
  intros Hc Hlen Hcopy.
  destruct (run_ok st (map PySeqRecord records) clargs Hc)
    as (st' & Hrun & _ & _ & Hcl & Hwd & _ & _ & Hfiles & _).
  { now rewrite length_map. }
  { apply forallb_isinstance_records. }
  rewrite omap_as_SeqRecord_records in Hfiles.
  rewrite (Hcopy _ _ (SeqIO_write_fasta records)) in Hfiles
    by apply lookup_insert_eq.
  assert (Hout : files (world st') !! outalign_file st
                 = Some (SeqIO_write_fasta records))
    by (rewrite Hfiles; apply lookup_insert_eq).
  exists st'. split; [exact Hrun |]. split; [| split; [exact Hout |]].
  - rewrite Hfiles, lookup_insert. case_decide; [reflexivity |].
    apply lookup_insert_eq.
  - apply (extract_results_found st' (next_workdir st)).
    + rewrite Hcl. apply cmdline_truthy.
    + exact Hwd.
    + exact Hout.
Qed.

Lemma run_extract_results_roundtrip_witness :
  (configured (self (Stub.fresh "/usr/bin/mafft"))
   /\ 2 <= length [Stub.seqA; Stub.seqB]
   /\ @copies_input Stub.copying)
  /\ exists st' : State,
       @MafftCline.run Stub.copying
         (map PySeqRecord [Stub.seqA; Stub.seqB])
         ["--retree 2"; "--maxiterate 0"] (Stub.fresh "/usr/bin/mafft")
       = (Ok tt, st')
       /\ files (world st')
            !! @inseq_file Stub.copying (Stub.fresh "/usr/bin/mafft")
          = Some (@SeqIO_write_fasta Stub.copying [Stub.seqA; Stub.seqB])
       /\ files (world st')
            !! @outalign_file Stub.copying (Stub.fresh "/usr/bin/mafft")
          = Some (@SeqIO_write_fasta Stub.copying [Stub.seqA; Stub.seqB])
       /\ @MafftCline.extract_results Stub.copying st'
          = (@AlignIO_read_fasta Stub.copying
               (@SeqIO_write_fasta Stub.copying [Stub.seqA; Stub.seqB]), st').
Proof.
  assert (Hc : configured (self (Stub.fresh "/usr/bin/mafft")))
    by (split; reflexivity).
  assert (Hlen : 2 <= length [Stub.seqA; Stub.seqB]) by (simpl; lia).
  split; [repeat split; try apply Hc; try exact Hlen;
          apply copy_tool_copies |].
  exact (@run_extract_results_roundtrip Stub.copying
           (Stub.fresh "/usr/bin/mafft") [Stub.seqA; Stub.seqB]
           ["--retree 2"; "--maxiterate 0"] Hc Hlen copy_tool_copies).
Defined.

(** C1, as stated, fails: identifiers and order need not come back.  With
    a FASTA codec that writes a header line [>id] and a line of residues
    per record, take the two records [A] with residues [>B] and [C] with
    residues [ACGT].  The run succeeds with the copying tool, and
    [extract_results] returns an alignment of three rows with the
    identifiers [A], [B], [C]: the residues of the first record are read
    back as the header of a record of their own. *)
Lemma roundtrip_fails_on_header_like_residues :
  let records := [mkSeqRecord "A" ">B"; mkSeqRecord "C" "ACGT"] in
  let st := Stub.fresh "/usr/bin/mafft" in
  let st' := snd (@MafftCline.run Stub.copying (map PySeqRecord records)
                    [] st) in
  (configured (self st) /\ 2 <= length records /\ @copies_input Stub.copying)
  /\ @MafftCline.run Stub.copying (map PySeqRecord records) [] st
     = (Ok tt, st')
  /\ exists aln : Alignment,
       @MafftCline.extract_results Stub.copying st' = (Ok aln, st')
       /\ map sr_id aln = ["A"; "B"; "C"]
       /\ map sr_id aln <> map sr_id records.
Proof.
  intros records st st'. split.
  - split; [split; reflexivity |]. split; [simpl; lia |].
    apply copy_tool_copies.
  - split; [vm_compute; reflexivity |].
    eexists. split; [vm_compute; reflexivity |].
    split; [reflexivity | discriminate].
Qed.

(** C2: precondition of [run].  With fewer than two elements [run] raises
    the assertion failure of its precondition at once: the runner and the
    world are exactly as before, so nothing was written and no external
    process was started.  With two or more elements the check passes and
    [run] goes on to record the sequences and call the command line. *)
Theorem run_requires_two_sequences `{Platform} (st : State)
    (bioseqs : list pyobj) (clargs : list string) :
  (length bioseqs < 2 ->
     MafftCline.run bioseqs clargs st = (Raise (AssertionError None), st)
     /\ spawned (world (snd (MafftCline.run bioseqs clargs st)))
        = spawned (world st))
  /\ (2 <= length bioseqs ->
        MafftCline.run bioseqs clargs st
        = MafftCline.call_cmdline clargs (with_self (set_inseqs bioseqs) st)).
Proof.
  split.
  - intros Hlt. rewrite run_short by exact Hlt. split; reflexivity.
  - apply run_long.
Qed.

Lemma run_requires_two_sequences_witness :
  (length [PySeqRecord Stub.seqA] < 2
   /\ @MafftCline.run Stub.copying [PySeqRecord Stub.seqA] []
        (Stub.fresh "/usr/bin/mafft")
      = (Raise (AssertionError None), Stub.fresh "/usr/bin/mafft"))
  /\ (2 <= length [PySeqRecord Stub.seqA; PySeqRecord Stub.seqB]
      /\ @MafftCline.run Stub.copying
           [PySeqRecord Stub.seqA; PySeqRecord Stub.seqB] []
           (Stub.fresh "/usr/bin/mafft")
         = @MafftCline.call_cmdline Stub.copying []
             (with_self
                (set_inseqs [PySeqRecord Stub.seqA; PySeqRecord Stub.seqB])
                (Stub.fresh "/usr/bin/mafft"))).
Proof.
  split; (split; [simpl; lia |]).
  - apply (proj1 (@run_requires_two_sequences Stub.copying
                    (Stub.fresh "/usr/bin/mafft") [PySeqRecord Stub.seqA] [])).
    simpl; lia.
  - apply (proj2 (@run_requires_two_sequences Stub.copying
                    (Stub.fresh "/usr/bin/mafft")
                    [PySeqRecord Stub.seqA; PySeqRecord Stub.seqB] [])).
    simpl; lia.
Defined.

(** C4: result extraction before any run.  On a runner for which no run
    has got as far as building a command line, [extract_results] raises
    the assertion failure of its first precondition (no message), and it
    changes nothing. *)
Theorem extract_results_before_run `{Platform} (st : State) :
  never_run st ->
  MafftCline.extract_results st = (Raise (AssertionError None), st).
Proof.
  intros Hnr. apply extract_results_not_run.
  destruct (never_run_invariant st Hnr) as [_ Hcl]. now rewrite Hcl.
Qed.

Lemma extract_results_before_run_witness :
  @never_run Stub.copying (Stub.fresh "/usr/bin/mafft")
  /\ @MafftCline.extract_results Stub.copying (Stub.fresh "/usr/bin/mafft")
     = (Raise (AssertionError None), Stub.fresh "/usr/bin/mafft").
Proof.
  split; [apply never_run_new |].
  apply (@extract_results_before_run Stub.copying).
  apply never_run_new.
Defined.

(** C5: missing output file.  When a run of a [MafftCline] runner has
    completed and the path [outalign.fasta] in its working directory does
    not exist, [extract_results] raises an assertion failure whose message
    names that path; no alignment is returned and nothing changes. *)
Theorem extract_results_output_missing `{Platform} (st0 st : State)
    (bioseqs : list pyobj) (clargs : list string) :
  configured (self st0) ->
  MafftCline.run bioseqs clargs st0 = (Ok tt, st) ->
  path_exists (world st) (outalign_file st0) = false ->
  MafftCline.extract_results st
  = (Raise (AssertionError
              (Some ("can't find outfile " +:+ outalign_file st0))), st).
Proof.
  intros Hc Hrun Hmiss.
  destruct (run_ok_inv _ _ _ _ Hc Hrun) as [Hlen Hall].
  destruct (run_ok st0 bioseqs clargs Hc Hlen Hall)
    as (st' & Hrun' & _ & _ & Hcl & Hwd & _).
  rewrite Hrun in Hrun'. injection Hrun' as <-.
  apply extract_results_missing.
  - rewrite Hcl. apply cmdline_truthy.
  - exact Hwd.
  - exact Hmiss.
Qed.

Lemma extract_results_output_missing_witness :
  let bioseqs := [PySeqRecord Stub.seqA; PySeqRecord Stub.seqB] in
  let st0 := Stub.fresh "/usr/bin/mafft" in
  let st := snd (@MafftCline.run Stub.failing bioseqs [] st0) in
  (configured (self st0)
   /\ @MafftCline.run Stub.failing bioseqs [] st0 = (Ok tt, st)
   /\ path_exists (world st) (@outalign_file Stub.failing st0) = false)
  /\ @MafftCline.extract_results Stub.failing st
     = (Raise (AssertionError
                 (Some "can't find outfile /tmp/mafft-scratch/outalign.fasta")),
        st).
Proof.
  intros bioseqs st0 st.
  assert (Hc : configured (self st0)) by (split; reflexivity).
  assert (Hrun : @MafftCline.run Stub.failing bioseqs [] st0 = (Ok tt, st))
    by (vm_compute; reflexivity).
  assert (Hmiss : path_exists (world st) (@outalign_file Stub.failing st0)
                  = false)
    by (vm_compute; reflexivity).
  split; [repeat split; try apply Hc; assumption |].
  exact (@extract_results_output_missing Stub.failing st0 st bioseqs []
           Hc Hrun Hmiss).
Defined.

(** C6 does not hold of the code.  After a completed quick-mode run on
    two sequences, with both files present in the working directory,
    [extract_diagnostics] returns no mapping: evaluating [utils], a name
    that the module never binds, raises [NameError] in the first round of
    the loop. *)
Theorem extract_diagnostics_unbound_utils :
  let st := snd (@MafftCline.run_fftns Stub.copying
                   [PySeqRecord Stub.seqA; PySeqRecord Stub.seqB]
                   (Stub.fresh "/usr/bin/mafft")) in
  path_exists (world st) "/tmp/mafft-scratch/inseq.fasta" = true
  /\ path_exists (world st) "/tmp/mafft-scratch/outalign.fasta" = true
  /\ @MafftCline.extract_diagnostics Stub.copying st
     = (Raise (NameError "utils"), st).
Proof.
  cbv zeta. split; [vm_compute; reflexivity |].
  split; [vm_compute; reflexivity |].
  rewrite extract_diagnostics_eq. reflexivity.
Qed.

(** C7: the quick mode is the preset.  [run_fftns] on a collection is [run]
    on the same collection with the two flags [--retree 2] and
    [--maxiterate 0], in every state, hence with the same precondition
    check; [run_quick_and_dirty] is another name for it; and the command
    line of the preset is the tool path, the two flags, the input file
    name and the redirection to the output file name. *)
Theorem run_fftns_is_preset `{Platform} (bioseqs : list pyobj) (st : State) :
  MafftCline.run_fftns bioseqs st
  = MafftCline.run bioseqs ["--retree 2"; "--maxiterate 0"] st
  /\ MafftCline.run_quick_and_dirty bioseqs st
     = MafftCline.run_fftns bioseqs st
  /\ MafftCline._build_cmdline ["--retree 2"; "--maxiterate 0"] st
     = (Ok (_exepath (self st)
            +:+ " --retree 2 --maxiterate 0 inseq.fasta > outalign.fasta"),
        st).
Proof.
  split; [reflexivity |]. split; [reflexivity |].
  rewrite build_cmdline_eq. do 2 f_equal.
  change (String.concat " "
            [_exepath (self st); "--retree 2"; "--maxiterate 0"])
    with (_exepath (self st) +:+ " " +:+ "--retree 2" +:+ " "
          +:+ "--maxiterate 0").
  now rewrite !append_assoc.
Qed.

(** C9: the two definitions of [extract_results] in the class body are the
    same function: in every state they return the same result or raise the
    same exception, and leave the same state. *)
Theorem extract_results_definitions_agree `{Platform} (st : State) :
  MafftCline.extract_results_first st = MafftCline.extract_results st.
Proof. reflexivity. Qed.

(** C8, as the code has it: every [MafftCline] runner keeps its working
    directory.  The constructor, whose only parameter is the tool path,
    passes [use_workdir=True] and [remove_workdir=False] on to the base
    constructor, which stores the flags it is given; and after a completed
    run of a runner with this policy the policy is unchanged, the working
    directory still exists and the files are those that the external
    process left. *)
Theorem workdir_retained `{Platform} (exepath : string) :
  configured (MafftCline.__init__ exepath)
  /\ (forall use_workdir remove_workdir check_requirements : bool,
        _remove_workdir
          (ClineApp.__init__ exepath use_workdir remove_workdir
             check_requirements)
        = remove_workdir)
  /\ (forall (st st' : State) (bioseqs : list pyobj) (clargs : list string),
        configured (self st) ->
        MafftCline.run bioseqs clargs st = (Ok tt, st') ->
        configured (self st')
        /\ _curr_workdir (self st') = Some (next_workdir st)
        /\ next_workdir st ∈ dirs (world st')
        /\ files (world st')
           = out_files
               (tool (next_workdir st) (full_cmdline st clargs)
                  (<[inseq_file st :=
                       SeqIO_write_fasta (omap as_SeqRecord bioseqs)]>
                     (files (world st))))).
Proof.
  split; [split; reflexivity |]. split; [reflexivity |].
  intros st st' bioseqs clargs Hc Hrun.
  destruct (run_ok_inv _ _ _ _ Hc Hrun) as [Hlen Hall].
  destruct (run_ok st bioseqs clargs Hc Hlen Hall)
    as (st2 & Hrun' & Hc' & _ & _ & Hwd & _ & _ & Hfiles & Hdirs & _).
  rewrite Hrun in Hrun'. injection Hrun' as <-.
  split; [exact Hc' |]. split; [exact Hwd |]. split; [| exact Hfiles].
  rewrite Hdirs. apply elem_of_union_l. now apply elem_of_singleton.
Qed.

Lemma workdir_retained_witness :
  let bioseqs := [PySeqRecord Stub.seqA; PySeqRecord Stub.seqB] in
  let st := Stub.fresh "/usr/bin/mafft" in
  let st' := snd (@MafftCline.run Stub.copying bioseqs [] st) in
  (configured (self st)
   /\ @MafftCline.run Stub.copying bioseqs [] st = (Ok tt, st'))
  /\ configured (self st')
  /\ _curr_workdir (self st') = Some "/tmp/mafft-scratch"
  /\ "/tmp/mafft-scratch" ∈ dirs (world st').
Proof.
  intros bioseqs st st'.
  assert (Hc : configured (self st)) by (split; reflexivity).
  assert (Hrun : @MafftCline.run Stub.copying bioseqs [] st = (Ok tt, st'))
    by (vm_compute; reflexivity).
  split; [split; assumption |].
  destruct (proj2 (proj2 (@workdir_retained Stub.copying "/usr/bin/mafft"))
              st st' bioseqs [] Hc Hrun) as (Hc' & Hwd & Hdir & _).
  split; [exact Hc' |]. split; [exact Hwd | exact Hdir].
Defined.

(** C8, as stated, fails: no argument of the constructor of [MafftCline]
    makes the runner remove its working directory, so retention cannot be
    configured on this runner. *)
Lemma retention_fixed_by_constructor :
  ~ (exists exepath : string,
       _remove_workdir (MafftCline.__init__ exepath) = true).
Proof. intros [exepath E]. discriminate E. Qed.

(** C10: the element check of [setup_workdir].  On a runner that uses a
    working directory and holds the collection [bioseqs]: if some element
    is not a [SeqRecord], [setup_workdir] raises an assertion failure in
    the state in which its loop started, so no file has been written or
    changed; if every element is a [SeqRecord], the checks pass,
    [setup_workdir] returns, and the only change to the files is the input
    file, which holds the library's text for the whole collection. *)
Theorem setup_workdir_checks_elements `{Platform} (st : State)
    (bioseqs : list pyobj) :
  _use_workdir (self st) = true ->
  _inseqs (self st) = Some bioseqs ->
  (Exists (fun o => isinstance_SeqRecord o = false) bioseqs ->
     MafftCline.setup_workdir st = (Raise (AssertionError None), prepared st)
     /\ files (world (prepared st)) = files (world st))
  /\ (Forall (fun o => isinstance_SeqRecord o = true) bioseqs ->
        exists st' : State,
          MafftCline.setup_workdir st = (Ok tt, st')
          /\ files (world st')
             = <[inseq_file st :=
                   SeqIO_write_fasta (omap as_SeqRecord bioseqs)]>
                 (files (world st))).
Proof.
  intros Huse Hseqs. rewrite (setup_workdir_eq st bioseqs Huse Hseqs). split.
  - intros Hbad. rewrite forallb_isinstance_false by exact Hbad.
    split; reflexivity.
  - intros Hall.
    assert (E : forallb isinstance_SeqRecord bioseqs = true)
      by (apply forallb_forall; intros o Ho;
          exact (proj1 (List.Forall_forall _ _) Hall o Ho)).
    rewrite E. eexists. split; reflexivity.
Qed.

Lemma setup_workdir_checks_elements_witness :
  let bad := [PySeqRecord Stub.seqA; PyStr "ACGT"] in
  let good := [PySeqRecord Stub.seqA; PySeqRecord Stub.seqB] in
  let st l := with_self (set_inseqs l) (Stub.fresh "/usr/bin/mafft") in
  (_use_workdir (self (st bad)) = true
   /\ _inseqs (self (st bad)) = Some bad
   /\ Exists (fun o => isinstance_SeqRecord o = false) bad
   /\ Forall (fun o => isinstance_SeqRecord o = true) good)
  /\ (@MafftCline.setup_workdir Stub.copying (st bad)
      = (Raise (AssertionError None), @prepared Stub.copying (st bad))
      /\ files (world (@prepared Stub.copying (st bad))) = ∅)
  /\ exists st' : State,
       @MafftCline.setup_workdir Stub.copying (st good) = (Ok tt, st')
       /\ files (world st')
          = <[@inseq_file Stub.copying (st good) :=
                @SeqIO_write_fasta Stub.copying [Stub.seqA; Stub.seqB]]> ∅.
Proof.
  intros bad good st.
  assert (Hbad : Exists (fun o => isinstance_SeqRecord o = false) bad)
    by (apply Exists_cons_tl, Exists_cons_hd; reflexivity).
  assert (Hgood : Forall (fun o => isinstance_SeqRecord o = true) good)
    by (repeat constructor).
  split; [repeat split; assumption |]. split.
  - exact (proj1 (@setup_workdir_checks_elements Stub.copying (st bad) bad
                    eq_refl eq_refl) Hbad).
  - exact (proj2 (@setup_workdir_checks_elements Stub.copying (st good) good
                    eq_refl eq_refl) Hgood).
Defined.

(** * Further properties of the module *)

(** ** Helper facts *)

Lemma extract_results_no_workdir `{Platform} (st : State) :
  truthy (_curr_cline (self st)) = true ->
  _curr_workdir (self st) = None ->
  MafftCline.extract_results st = (Raise (AttributeError "endswith"), st).
Proof.
  intros Ecl Ewd. unfold MafftCline.extract_results.
  unfold bind at 1. unfold gets at 1. cbv beta iota.
  erewrite bind_ok; [| unfold py_assert; rewrite Ecl; reflexivity].
  unfold bind at 1. unfold gets at 1. cbv beta iota. rewrite Ewd.
  erewrite bind_raise; reflexivity.
Qed.

(** ** extract_results *)

(** X1: [extract_results] only reads.  In every state, whether it returns
    an alignment or raises, the runner and the world are left exactly as
    they were, so a second call gives the same outcome as the first. *)
Theorem extract_results_read_only `{Platform} (st : State) :
  snd (MafftCline.extract_results st) = st
  /\ MafftCline.extract_results (snd (MafftCline.extract_results st))
     = MafftCline.extract_results st.
Proof.
  assert (E : snd (MafftCline.extract_results st) = st)
    by apply extract_results_state.
  split; [exact E | now rewrite E].
Qed.

(** X2: [extract_results] hands on the outcome of the alignment reader
    unchanged.  Once a command line is recorded and the output file exists
    in the working directory, the alignment that the reader yields for the
    text of the file is returned as it is, and an exception raised by the
    reader (a malformed file) propagates as it is. *)
Theorem extract_results_passes_reader_outcome `{Platform} (st : State)
    (d text : string) :
  truthy (_curr_cline (self st)) = true ->
  _curr_workdir (self st) = Some d ->
  files (world st) !! posix_join d MafftCline.OUTALIGN_FILENAME = Some text ->
  (forall aln : Alignment,
      AlignIO_read_fasta text = Ok aln ->
      MafftCline.extract_results st = (Ok aln, st))
  /\ (forall e : exn,
        AlignIO_read_fasta text = Raise e ->
        MafftCline.extract_results st = (Raise e, st)).
Proof.
  intros Ecl Ewd Efile.
  rewrite (extract_results_found st d text Ecl Ewd Efile).
  split; intros x ->; reflexivity.
Qed.

Lemma extract_results_passes_reader_outcome_witness :
  let st :=
    mkState
      (set_curr_workdir (Some "/w")
         (set_curr_cline (Some "mafft inseq.fasta > outalign.fasta")
            (MafftCline.__init__ "mafft")))
      (mkWorld {["/w/outalign.fasta" := "ACGT"]} {["/w"]} []) in
  (truthy (_curr_cline (self st)) = true
   /\ _curr_workdir (self st) = Some "/w"
   /\ files (world st) !! posix_join "/w" MafftCline.OUTALIGN_FILENAME
      = Some "ACGT"
   /\ @AlignIO_read_fasta Stub.copying "ACGT"
      = Raise (ValueError "No records found in handle"))
  /\ @MafftCline.extract_results Stub.copying st
     = (Raise (ValueError "No records found in handle"), st).
Proof.
  intros st.
  assert (Ecl : truthy (_curr_cline (self st)) = true) by reflexivity.
  assert (Ewd : _curr_workdir (self st) = Some "/w") by reflexivity.
  assert (Efile : files (world st)
                    !! posix_join "/w" MafftCline.OUTALIGN_FILENAME
                  = Some "ACGT") by (vm_compute; reflexivity).
  assert (Eread : @AlignIO_read_fasta Stub.copying "ACGT"
                  = Raise (ValueError "No records found in handle"))
    by (vm_compute; reflexivity).
  split; [repeat split; assumption |].
  exact (proj2 (@extract_results_passes_reader_outcome Stub.copying st
                  "/w" "ACGT" Ecl Ewd Efile) _ Eread).
Defined.

(** X3: the outcome of [extract_results] depends on three things only:
    the recorded command line, the recorded working directory and the
    world.  In particular it never looks at the exit status or the error
    stream of the process, at the stored sequences or at the tool path: two
    runners that agree on the command line and the working directory get
    the same alignment or the same exception over the same world. *)
Theorem extract_results_depends_on `{Platform} (st1 st2 : State) :
  _curr_cline (self st1) = _curr_cline (self st2) ->
  _curr_workdir (self st1) = _curr_workdir (self st2) ->
  world st1 = world st2 ->
  fst (MafftCline.extract_results st1) = fst (MafftCline.extract_results st2).
Proof.
  intros Ecl Ewd Ew.
  destruct (truthy (_curr_cline (self st2))) eqn:T2.
  - assert (T1 : truthy (_curr_cline (self st1)) = true) by now rewrite Ecl.
    destruct (_curr_workdir (self st2)) as [d|] eqn:W2.
    + rewrite (extract_results_in_workdir st1 d T1 Ewd).
      rewrite (extract_results_in_workdir st2 d T2 W2).
      cbv zeta. rewrite Ew.
      destruct (path_exists _ _); [| reflexivity].
      destruct (files (world st2) !! _); reflexivity.
    + rewrite (extract_results_no_workdir st1 T1 Ewd).
      now rewrite (extract_results_no_workdir st2 T2 W2).
  - assert (T1 : truthy (_curr_cline (self st1)) = false) by now rewrite Ecl.
    rewrite (extract_results_not_run st1 T1).
    now rewrite (extract_results_not_run st2 T2).
Qed.

Lemma extract_results_depends_on_witness :
  let st1 := snd (@MafftCline.run Stub.copying
                    [PySeqRecord Stub.seqA; PySeqRecord Stub.seqB] []
                    (Stub.fresh "/usr/bin/mafft")) in
  let st2 := with_self (set_curr_result 1 "mafft: error") st1 in
  (_curr_cline (self st1) = _curr_cline (self st2)
   /\ _curr_workdir (self st1) = _curr_workdir (self st2)
   /\ world st1 = world st2)
  /\ fst (@MafftCline.extract_results Stub.copying st1)
     = fst (@MafftCline.extract_results Stub.copying st2).
Proof.
  intros st1 st2.
  split; [repeat split; reflexivity |].
  exact (@extract_results_depends_on Stub.copying st1 st2
           eq_refl eq_refl eq_refl).
Defined.

(** X4: a directory in the place of the output file.  [os.path.exists] is
    satisfied by a directory, so when [outalign.fasta] in the working
    directory names a directory the second assertion passes and the failure
    comes from [open], as an [IOError] for that path. *)
Theorem extract_results_output_is_directory `{Platform} (st : State)
    (d : string) :
  truthy (_curr_cline (self st)) = true ->
  _curr_workdir (self st) = Some d ->
  files (world st) !! posix_join d MafftCline.OUTALIGN_FILENAME = None ->
  posix_join d MafftCline.OUTALIGN_FILENAME ∈ dirs (world st) ->
  MafftCline.extract_results st
  = (Raise (IOError (posix_join d MafftCline.OUTALIGN_FILENAME)), st).
Proof.
  intros Ecl Ewd Efile Edir.
  rewrite (extract_results_in_workdir st d Ecl Ewd). cbv zeta.
  unfold path_exists. rewrite Efile.
  rewrite (bool_decide_eq_true_2 _ Edir), orb_true_r. reflexivity.
Qed.

Lemma extract_results_output_is_directory_witness :
  let st :=
    mkState
      (set_curr_workdir (Some "/w")
         (set_curr_cline (Some "mafft inseq.fasta > outalign.fasta")
            (MafftCline.__init__ "mafft")))
      (mkWorld ∅ {["/w/outalign.fasta"]} []) in
  (truthy (_curr_cline (self st)) = true
   /\ _curr_workdir (self st) = Some "/w"
   /\ files (world st) !! posix_join "/w" MafftCline.OUTALIGN_FILENAME = None
   /\ posix_join "/w" MafftCline.OUTALIGN_FILENAME ∈ dirs (world st))
  /\ @MafftCline.extract_results Stub.copying st
     = (Raise (IOError "/w/outalign.fasta"), st).
Proof.
  intros st.
  assert (Ecl : truthy (_curr_cline (self st)) = true) by reflexivity.
  assert (Ewd : _curr_workdir (self st) = Some "/w") by reflexivity.
  assert (Efile : files (world st)
                    !! posix_join "/w" MafftCline.OUTALIGN_FILENAME = None)
    by (vm_compute; reflexivity).
  assert (Edir : posix_join "/w" MafftCline.OUTALIGN_FILENAME
                 ∈ dirs (world st))
    by exact (proj2 (elem_of_singleton (C := gset string)
                       "/w/outalign.fasta" "/w/outalign.fasta") eq_refl).
  split; [repeat split; assumption |].
  exact (@extract_results_output_is_directory Stub.copying st "/w"
           Ecl Ewd Efile Edir).
Defined.

(** X5: an empty command line counts as no run.  The first assertion of
    [extract_results] tests the truth value of [_curr_cline], so the empty
    string fails it exactly as [None] does: the assertion failure without
    message is raised whatever the working directory and the files are,
    even when the output file exists. *)
Theorem extract_results_falsy_cmdline `{Platform} (st : State) :
  _curr_cline (self st) = None \/ _curr_cline (self st) = Some "" ->
  MafftCline.extract_results st = (Raise (AssertionError None), st).
Proof.
  intros [E | E]; apply extract_results_not_run; now rewrite E.
Qed.

Lemma extract_results_falsy_cmdline_witness :
  let st :=
    mkState
      (set_curr_workdir (Some "/w")
         (set_curr_cline (Some "") (MafftCline.__init__ "mafft")))
      (mkWorld {["/w/outalign.fasta" := Stub.write_fasta [Stub.seqA]]}
         {["/w"]} []) in
  (_curr_cline (self st) = None \/ _curr_cline (self st) = Some "")
  /\ path_exists (world st) "/w/outalign.fasta" = true
  /\ @MafftCline.extract_results Stub.copying st
     = (Raise (AssertionError None), st).
Proof.
  intros st.
  assert (E : _curr_cline (self st) = None \/ _curr_cline (self st) = Some "")
    by (right; reflexivity).
  split; [exact E |]. split; [vm_compute; reflexivity |].
  exact (@extract_results_falsy_cmdline Stub.copying st E).
Defined.

(** ** _build_cmdline *)

(** X6: the command line is never empty.  Whatever the tool path and the
    arguments are, also for an empty tool path and no arguments,
    [_build_cmdline] returns a non-empty string, because the redirection
    to the output file is always appended; so a command line recorded
    from it always passes the truth-value test of [extract_results]. *)
Theorem build_cmdline_never_empty (clargs : list string) (st : State) :
  exists cmdline : string,
    MafftCline._build_cmdline clargs st = (Ok cmdline, st)
    /\ cmdline <> ""
    /\ truthy (Some cmdline) = true.
Proof.
  eexists. split; [apply build_cmdline_eq |]. split.
  - apply append_nonempty. discriminate.
  - apply cmdline_truthy.
Qed.

(** ** extract_diagnostics *)

(** X7: [extract_diagnostics] never returns, in any state.  When a working
    directory is recorded it raises [NameError] for the unbound name
    [utils]; when none is recorded yet, joining [None] with the file name
    raises [AttributeError] before that.  In both cases the runner and the
    world are unchanged. *)
Theorem extract_diagnostics_never_returns `{Platform} (st : State) :
  MafftCline.extract_diagnostics st
  = (Raise match _curr_workdir (self st) with
           | Some _ => NameError "utils"
           | None => AttributeError "endswith"
           end, st)
  /\ forall (diag : gmap string string) (st' : State),
       MafftCline.extract_diagnostics st <> (Ok diag, st').
Proof.
  split; [apply extract_diagnostics_eq |].
  intros diag st'. rewrite extract_diagnostics_eq. discriminate.
Qed.

(** ** setup_workdir and run *)

(** X8: the loop of [setup_workdir] is all or nothing.  Started with the
    list [inseqs], it returns [inseqs] followed by the whole collection,
    element for element and in the same order, when every element is a
    [SeqRecord]; otherwise it raises the assertion failure.  Either way it
    touches neither the runner nor the world. *)
Theorem convert_loop_all_or_nothing (bioseqs inseqs : list pyobj)
    (st : State) :
  MafftCline.convert_loop bioseqs inseqs st
  = if forallb isinstance_SeqRecord bioseqs
    then (Ok (inseqs ++ bioseqs), st)
    else (Raise (AssertionError None), st).
Proof. apply convert_loop_eq. Qed.

(** X9: [setup_workdir] needs the sequences that [run] stores.  On a
    runner that uses a working directory and on which [_inseqs] has never
    been assigned, [setup_workdir] raises [AttributeError] for [_inseqs];
    by then the working directory has been created and recorded together
    with the path of the input file, but no file has been written. *)
Theorem setup_workdir_without_sequences `{Platform} (st : State) :
  _use_workdir (self st) = true ->
  _inseqs (self st) = None ->
  MafftCline.setup_workdir st = (Raise (AttributeError "_inseqs"), prepared st)
  /\ files (world (prepared st)) = files (world st)
  /\ next_workdir st ∈ dirs (world (prepared st)).
Proof.
  intros Euse Eseqs. split; [| split; [reflexivity |]].
  - unfold MafftCline.setup_workdir.
    rewrite (bind_ok _ _ _ _ _ (base_setup_workdir_eq st Euse)).
    unfold bind at 1. unfold gets at 1. cbv beta iota.
    unfold scratchfile.make_scratch_file.
    erewrite bind_ok; [| apply os_path_join_relative; reflexivity].
    unfold bind at 1. unfold modify at 1. cbv beta iota.
    apply bind_raise. unfold getattr.
    cbn [self with_self _inseqs set_inseq_path set_curr_workdir with_world].
    now rewrite Eseqs.
  - apply elem_of_union_l. now apply elem_of_singleton.
Qed.

Lemma setup_workdir_without_sequences_witness :
  let st := Stub.fresh "/usr/bin/mafft" in
  (_use_workdir (self st) = true /\ _inseqs (self st) = None)
  /\ @MafftCline.setup_workdir Stub.copying st
     = (Raise (AttributeError "_inseqs"), @prepared Stub.copying st)
  /\ files (world (@prepared Stub.copying st)) = ∅.
Proof.
  intros st. split; [split; reflexivity |].
  destruct (@setup_workdir_without_sequences Stub.copying st
              eq_refl eq_refl) as (E & F & _).
  split; [exact E | exact F].
Defined.

(** X10: a run that fails the element check.  With at least two elements
    of which one is not a [SeqRecord], [run] raises the assertion failure
    of [setup_workdir].  No external process has been started, no file has
    been written and the recorded command line is the one from before; but
    the collection has already been stored on the runner and the working
    directory has been created and recorded. *)
Theorem run_rejects_non_records `{Platform} (st : State)
    (bioseqs : list pyobj) (clargs : list string) :
  _use_workdir (self st) = true ->
  2 <= length bioseqs ->
  Exists (fun o => isinstance_SeqRecord o = false) bioseqs ->
  exists st' : State,
    MafftCline.run bioseqs clargs st = (Raise (AssertionError None), st')
    /\ spawned (world st') = spawned (world st)
    /\ files (world st') = files (world st)
    /\ _curr_cline (self st') = _curr_cline (self st)
    /\ _inseqs (self st') = Some bioseqs
    /\ _curr_workdir (self st') = Some (next_workdir st)
    /\ next_workdir st ∈ dirs (world st').
Proof.
  intros Euse Hlen Hbad. eexists. split.
  - apply run_nonrecord; [exact Euse | exact Hlen |].
    now apply forallb_isinstance_false.
  - repeat split. apply elem_of_union_l. now apply elem_of_singleton.
Qed.

Lemma run_rejects_non_records_witness :
  let bioseqs := [PySeqRecord Stub.seqA; PyNone] in
  let st := Stub.fresh "/usr/bin/mafft" in
  (_use_workdir (self st) = true
   /\ 2 <= length bioseqs
   /\ Exists (fun o => isinstance_SeqRecord o = false) bioseqs)
  /\ exists st' : State,
       @MafftCline.run Stub.copying bioseqs [] st
       = (Raise (AssertionError None), st')
       /\ spawned (world st') = []
       /\ files (world st') = ∅
       /\ _curr_cline (self st') = None.
Proof.
  intros bioseqs st.
  assert (Hlen : 2 <= length bioseqs) by (simpl; lia).
  assert (Hbad : Exists (fun o => isinstance_SeqRecord o = false) bioseqs)
    by (apply Exists_cons_tl, Exists_cons_hd; reflexivity).
  split; [repeat split; assumption |].
  destruct (@run_rejects_non_records Stub.copying st bioseqs []
              eq_refl Hlen Hbad) as (st' & E & S & F & C & _).
  exists st'. repeat split; assumption.
Defined.
